(** * DataBox, [mcc/finite_scan_with_trigger.py]

    A shallow embedding of the two device loops of the triggered finite
    scan demo, [wait_for_trigger] and [read_and_display_data], and the
    properties of the loops: overrun handling, the end of the read loop,
    the last interleaved group that is displayed, and the absence of any
    time-out of the script's own.

    The device ([hat], an [mcc118] object of the vendor SDK) is an external
    collaborator: it is an interface with two operations, and every theorem
    holds for every implementation of it, or for every sequence of answers
    it may give.  The script's effects (device calls, what is printed, the
    element reads of [read_result.data], [stdout.flush], [sleep]) are logged
    in program order. *)

From Stdlib Require Import ZArith QArith List String Ascii DecimalString Bool Lia.
Import ListNotations.

Open Scope Z_scope.

(** ** Python values and control flow *)

(** The exceptions the two functions can raise by themselves. *)
Inductive exn : Type :=
| ZeroDivisionError
| IndexError.

(** What one pass through the body of a [while] loop does. *)
Inductive step (S : Type) : Type :=
| Continue (s : S)          (* the end of the body is reached *)
| Break (s : S)             (* a [break] statement *)
| Throw (e : exn) (s : S).  (* an exception leaves the loop *)

Arguments Continue {S} s.
Arguments Break {S} s.
Arguments Throw {S} e s.

(** What a loop run with a bounded number of passes does. *)
Inductive outcome (S : Type) : Type :=
| Done (s : S)              (* the statement after the loop is reached *)
| Raised (e : exn) (s : S)
| OutOfFuel (s : S).        (* still looping after [fuel] passes *)

Arguments Done {S} s.
Arguments Raised {S} e s.
Arguments OutOfFuel {S} s.

Definition final {S : Type} (o : outcome S) : S :=
  match o with
  | Done s => s
  | Raised _ s => s
  | OutOfFuel s => s
  end.

(** [while cond: body], at most [fuel] passes through the body. *)
Fixpoint py_while {S : Type} (cond : S -> bool) (body : S -> step S)
    (fuel : nat) (s : S) {struct fuel} : outcome S :=
  if cond s then
    match fuel with
    | O => OutOfFuel s
    | Datatypes.S fuel' =>
        match body s with
        | Continue s' => py_while cond body fuel' s'
        | Break s' => Done s'
        | Throw e s' => Raised e s'
        end
    end
  else Done s.

(** [int(a / b)] on two [int]s.  The launcher starts the script with
    [python] and is itself Python 2 ([Tkinter]), and the script imports no
    [division]: [a / b] is the floor of the quotient and [int] leaves it as
    it is; a zero divisor raises [ZeroDivisionError].  For [0 <= a] and
    [0 < b], the only case in which the theorems below use the quotient,
    Python 3's [int(a / b)] is the same number. *)
Definition py_div (a b : Z) : option Z :=
  if b =? 0 then None else Some (a / b).

(** [range(n)]: 0, 1, ..., n-1, empty when [n <= 0]. *)
Definition range (n : Z) : list Z :=
  map Z.of_nat (seq 0 (Z.to_nat n)).

(** [l[i]] on a list: a negative index counts from the end, an index out
    of range raises [IndexError] (here [None]). *)
Definition py_getitem {A : Type} (l : list A) (i : Z) : option A :=
  let n := Z.of_nat (List.length l) in
  if 0 <=? i then nth_error l (Z.to_nat i)
  else if - n <=? i then nth_error l (Z.to_nat (n + i))
  else None.

(** [l[i:j]] for [0 <= i <= j]. *)
Definition py_slice {A : Type} (l : list A) (i j : nat) : list A :=
  firstn (j - i) (skipn i l).

Definition nl : string := String (ascii_of_nat 10) EmptyString.

(** ** The device interface *)

Section Scan.

(** The type of a sample (a Python [float]); the loops only move samples
    from [data] to the terminal. *)
Variable sample : Type.

(** The fields of [a_in_scan_status()]'s result that the script reads. *)
Record ScanStatus : Type := mkScanStatus {
  running : bool;
  triggered : bool
}.

(** The fields of [a_in_scan_read()]'s result that the script reads. *)
Record ReadResult : Type := mkReadResult {
  data : list sample;
  hardware_overrun : bool;
  buffer_overrun : bool
}.

(** An [mcc118] object: each call answers and changes the device. *)
Class mcc118 (hat : Type) : Type := {
  a_in_scan_status : hat -> ScanStatus * hat;
  a_in_scan_read : Z -> Q -> hat -> ReadResult * hat
}.

(** The script's effects, in program order. *)
Inductive event : Type :=
| ScanStatusCall                              (* hat.a_in_scan_status() *)
| ScanReadCall (samples_per_channel : Z) (timeout : Q)
                                              (* hat.a_in_scan_read(..) *)
| Print (text : string)                       (* print(text) *)
| PrintCounts (samples_read_per_channel total_samples_read : Z)
      (* print('\r{:12}'.format(..), ' {:12} '.format(..), end='') *)
| GetItem (i : Z)                             (* read_result.data[i] *)
| PrintVolt (v : sample)    (* print('{:10.5f}'.format(v), 'V ', end='') *)
| Flush                                       (* stdout.flush() *)
| Sleep (seconds : Q).                        (* sleep(seconds) *)

Definition is_read (e : event) : bool :=
  match e with ScanReadCall _ _ => true | _ => false end.

Definition is_display_line (e : event) : bool :=
  match e with PrintCounts _ _ => true | _ => false end.

(** The samples printed, in order. *)
Fixpoint printed (out : list event) : list sample :=
  match out with
  | [] => []
  | PrintVolt v :: out' => v :: printed out'
  | _ :: out' => printed out'
  end.

(** The indices at which [data] was read, in order. *)
Fixpoint indexed (out : list event) : list Z :=
  match out with
  | [] => []
  | GetItem i :: out' => i :: indexed out'
  | _ :: out' => indexed out'
  end.

Context {hat : Type} {HAT : mcc118 hat}.

(** ** [wait_for_trigger] *)

Record trigger_state : Type := mkTrigger {
  t_hat : hat;
  is_running : bool;
  is_triggered : bool;
  t_out : list event
}.

(** Lines 119-121. *)
Definition trigger_body (s : trigger_state) : step trigger_state :=
  let (status, h) := a_in_scan_status (t_hat s) in
  Continue {| t_hat := h;
              is_running := running status;
              is_triggered := triggered status;
              t_out := t_out s ++ [ScanStatusCall] |}.

(** Line 118: [is_running and not is_triggered]. *)
Definition trigger_cond (s : trigger_state) : bool :=
  is_running s && negb (is_triggered s).

(** Lines 116-121. *)
Definition wait_for_trigger (fuel : nat) (h : hat) : outcome trigger_state :=
  py_while trigger_cond trigger_body fuel
    {| t_hat := h; is_running := true; is_triggered := false; t_out := [] |}.

(** ** [read_and_display_data] *)

Record read_state : Type := mkRead {
  r_hat : hat;
  total_samples_read : Z;
  r_out : list event
}.

Definition read_request_size : Z := 500.
Definition timeout : Q := 5 # 1.

Definition emit (e : event) (s : read_state) : read_state :=
  {| r_hat := r_hat s;
     total_samples_read := total_samples_read s;
     r_out := r_out s ++ [e] |}.

(** [hat.a_in_scan_read(size, t)]: the call is logged with the arguments
    it passes. *)
Definition scan_read (size : Z) (t : Q) (s : read_state)
    : ReadResult * read_state :=
  let (read_result, h) := a_in_scan_read size t (r_hat s) in
  (read_result,
   {| r_hat := h;
      total_samples_read := total_samples_read s;
      r_out := r_out s ++ [ScanReadCall size t] |}).

(** Lines 167-169: [for i in range(num_channels): print(... data[index + i]
    ...)], over the values [todo] that [i] still has to take. *)
Fixpoint display_group (d : list sample) (index : Z) (todo : list Z)
    (s : read_state) : step read_state :=
  match todo with
  | [] => Continue s
  | i :: todo' =>
      let s1 := emit (GetItem (index + i)) s in
      match py_getitem d (index + i) with
      | None => Throw IndexError s1
      | Some v => display_group d index todo' (emit (PrintVolt v) s1)
      end
  end.

(** Lines 147-172, one pass through the body of the loop. *)
Definition read_body (num_channels : Z) (s : read_state) : step read_state :=
  let (read_result, s1) := scan_read read_request_size timeout s in
  if hardware_overrun read_result then
    Break (emit (Print (nl ++ nl ++ "Hardware overrun" ++ nl)%string) s1)
  else if buffer_overrun read_result then
    Break (emit (Print (nl ++ nl ++ "Buffer overrun" ++ nl)%string) s1)
  else
    match py_div (Z.of_nat (List.length (data read_result))) num_channels with
    | None => Throw ZeroDivisionError s1
    | Some samples_read_per_channel =>
        let total := total_samples_read s1 + samples_read_per_channel in
        let s2 := {| r_hat := r_hat s1;
                     total_samples_read := total;
                     r_out := r_out s1 |} in
        let s3 := emit (PrintCounts samples_read_per_channel total) s2 in
        if 0 <? samples_read_per_channel then
          let index := samples_read_per_channel * num_channels - num_channels in
          match display_group (data read_result) index (range num_channels) s3 with
          | Continue s4 => Continue (emit (Sleep (1 # 10)) (emit Flush s4))
          | other => other
          end
        else Continue s3
    end.

(** Line 146: [total_samples_read < samples_per_channel]. *)
Definition read_cond (samples_per_channel : Z) (s : read_state) : bool :=
  total_samples_read s <? samples_per_channel.

(** Lines 146-172, the loop from any state of it. *)
Definition read_loop (samples_per_channel num_channels : Z) (fuel : nat)
    (s : read_state) : outcome read_state :=
  py_while (read_cond samples_per_channel) (read_body num_channels) fuel s.

(** Lines 140-174. *)
Definition read_and_display_data (fuel : nat) (h : hat)
    (samples_per_channel num_channels : Z) : outcome read_state :=
  match read_loop samples_per_channel num_channels fuel
          {| r_hat := h; total_samples_read := 0; r_out := [] |} with
  | Done s => Done (emit (Print nl) s)
  | other => other
  end.

End Scan.

Arguments mkReadResult {sample}.
Arguments data {sample}.
Arguments hardware_overrun {sample}.
Arguments buffer_overrun {sample}.
Arguments a_in_scan_status {sample hat mcc118}.
Arguments a_in_scan_read {sample hat mcc118}.
Arguments ScanStatusCall {sample}.
Arguments ScanReadCall {sample}.
Arguments Print {sample}.
Arguments PrintCounts {sample}.
Arguments GetItem {sample}.
Arguments PrintVolt {sample}.
Arguments Flush {sample}.
Arguments Sleep {sample}.
Arguments is_read {sample}.
Arguments is_display_line {sample}.
Arguments printed {sample}.
Arguments indexed {sample}.
Arguments trigger_state : clear implicits.
Arguments read_state : clear implicits.
Arguments t_hat {sample hat}.
Arguments is_running {sample hat}.
Arguments is_triggered {sample hat}.
Arguments t_out {sample hat}.
Arguments mkTrigger {sample hat}.
Arguments trigger_cond {sample hat}.
Arguments trigger_body {sample hat HAT}.
Arguments wait_for_trigger {sample hat HAT}.
Arguments r_hat {sample hat}.
Arguments total_samples_read {sample hat}.
Arguments r_out {sample hat}.
Arguments mkRead {sample hat}.
Arguments emit {sample hat}.
Arguments scan_read {sample hat HAT}.
Arguments display_group {sample hat}.
Arguments read_cond {sample hat}.
Arguments read_body {sample hat HAT}.
Arguments read_loop {sample hat HAT}.
Arguments read_and_display_data {sample hat HAT}.

(** ** A device that replays a sequence of answers

    The [k]-th call of [a_in_scan_status] answers [statuses k] and the
    [k]-th call of [a_in_scan_read] answers [reads k], whatever its
    arguments; the device counts the calls of each kind. *)

Record tape (sample : Type) : Type := mkTape {
  statuses : nat -> ScanStatus;
  reads : nat -> ReadResult sample;
  status_calls : nat;
  read_calls : nat
}.

Arguments mkTape {sample}.
Arguments statuses {sample}.
Arguments reads {sample}.
Arguments status_calls {sample}.
Arguments read_calls {sample}.

#[export] Instance tape_mcc118 (sample : Type) : mcc118 sample (tape sample) := {
  a_in_scan_status t :=
    (statuses t (status_calls t),
     mkTape (statuses t) (reads t) (S (status_calls t)) (read_calls t));
  a_in_scan_read _ _ t :=
    (reads t (read_calls t),
     mkTape (statuses t) (reads t) (status_calls t) (S (read_calls t)))
}.

(** A scan that is still waiting for its trigger. *)
Definition waiting (st : ScanStatus) : Prop :=
  running st = true /\ triggered st = false.

(** A read without an overrun. *)
Definition no_overrun {sample : Type} (r : ReadResult sample) : Prop :=
  hardware_overrun r = false /\ buffer_overrun r = false.

(** The samples per channel that a read without an overrun brings. *)
Definition block {sample : Type} (num_channels : Z) (r : ReadResult sample) : Z :=
  Z.of_nat (List.length (data r)) / num_channels.

(** The running total after the first [k] reads of a sequence. *)
Fixpoint totals {sample : Type} (rs : nat -> ReadResult sample)
    (num_channels : Z) (k : nat) : Z :=
  match k with
  | O => 0
  | S k' => totals rs num_channels k' + block num_channels (rs k')
  end.

(** The number of events of one kind in a log. *)
Definition count {sample : Type} (p : event sample -> bool)
    (out : list (event sample)) : nat :=
  List.length (filter p out).

(** The loop variables of [wait_for_trigger] after [p] polls: the initial
    values stand for a status that is still waiting. *)
Definition seen (ss : nat -> ScanStatus) (p : nat) : ScanStatus :=
  match p with
  | O => mkScanStatus true false
  | S k => ss k
  end.

(** The state of [wait_for_trigger] after [p] polls of a replayed device. *)
Definition polled {sample : Type} (ss : nat -> ScanStatus)
    (rs : nat -> ReadResult sample) (q p : nat)
    : trigger_state sample (tape sample) :=
  mkTrigger (mkTape ss rs p q) (running (seen ss p)) (triggered (seen ss p))
    (repeat ScanStatusCall p).

(** What the display of a group logs: the elements [vs] read from index
    [from] on, each printed as it is read. *)
Fixpoint group_log {sample : Type} (from : Z) (vs : list sample)
    : list (event sample) :=
  match vs with
  | [] => []
  | v :: vs' => GetItem from :: PrintVolt v :: group_log (from + 1) vs'
  end.

(** What one pass logs when the read [r] has no overrun and brings whole
    groups of [num_channels] samples up to index [b * num_channels], the
    running total being [total] before the pass. *)
Definition pass_log {sample : Type} (num_channels total : Z)
    (r : ReadResult sample) : list (event sample) :=
  let b := block num_channels r in
  ScanReadCall read_request_size timeout ::
  PrintCounts b (total + b) ::
  (if 0 <? b then
     group_log (b * num_channels - num_channels)
       (py_slice (data r) (Z.to_nat (b * num_channels - num_channels))
          (Z.to_nat (b * num_channels)))
     ++ [Flush; Sleep (1 # 10)]
   else []).

(** The log after the first [k] reads of a sequence without overrun. *)
Fixpoint log {sample : Type} (rs : nat -> ReadResult sample)
    (num_channels : Z) (k : nat) : list (event sample) :=
  match k with
  | O => []
  | S k' =>
      log rs num_channels k' ++
      pass_log num_channels (totals rs num_channels k') (rs k')
  end.

(** The state of the read loop after [k] passes on a replayed device. *)
Definition after {sample : Type} (ss : nat -> ScanStatus)
    (rs : nat -> ReadResult sample) (p : nat) (num_channels : Z) (k : nat)
    : read_state sample (tape sample) :=
  mkRead (mkTape ss rs p k) (totals rs num_channels k) (log rs num_channels k).

(** The running total reaches the target at the [n]-th read and not
    before. *)
Definition first_crossing {sample : Type} (rs : nat -> ReadResult sample)
    (samples_per_channel num_channels : Z) (n : nat) : Prop :=
  samples_per_channel <= totals rs num_channels n /\
  forall m, (m < n)%nat -> totals rs num_channels m < samples_per_channel.

(** The requests that the script may make of the device. *)
Definition fixed_request {sample : Type} (e : event sample) : Prop :=
  match e with
  | ScanReadCall size t => size = 500 /\ t = 5 # 1
  | _ => True
  end.

(** The state that a pass leaves. *)
Definition left_by {S : Type} (st : step S) : S :=
  match st with
  | Continue s => s
  | Break s => s
  | Throw _ s => s
  end.

(** ** Example devices, with voltages as rationals *)

Definition volts : list Q :=
  [1 # 2; 3 # 2; 5 # 2; 7 # 2; 9 # 2; 11 # 2; 13 # 2; 15 # 2; 17 # 2].

Definition trigger_at_third (k : nat) : ScanStatus :=
  mkScanStatus true (Nat.eqb k 2).

Definition never_triggered (k : nat) : ScanStatus :=
  mkScanStatus true false.

Definition nine_samples (k : nat) : ReadResult Q :=
  mkReadResult volts false false.

Definition buffer_overruns (k : nat) : ReadResult Q :=
  mkReadResult volts false true.

Definition timed_out_reads (k : nat) : ReadResult Q :=
  mkReadResult [] false false.

Definition full_blocks (k : nat) : ReadResult Q :=
  mkReadResult (repeat (1 # 2)%Q 2000) false false.


(** The read loop before its first pass, on a device that replays the
    reads [rs]. *)
Definition fresh (rs : nat -> ReadResult Q) : read_state Q (tape Q) :=
  mkRead (mkTape never_triggered rs 0 0) 0 [].

(** ** [main]: the wait for the trigger, then the reads

    Lines 79-92, the body of the inner [try] of [main], with the values
    that lines 36-40 give to the local variables.  The calls of the SDK
    before it, which choose and start the device, and the handlers, which
    serve a [KeyboardInterrupt] from outside and the errors of those calls,
    are not part of it: an exception of the two loops passes through
    both handlers. *)

Module Main.

Definition channels : list Z := [0; 1; 2; 3].
Definition num_channels : Z := Z.of_nat (List.length channels).
Definition samples_per_channel : Z := 10000.

(** [str(n)] for an [int]. *)
Definition py_str (n : Z) : string := NilZero.string_of_int (Z.to_int n).

(** The characters that [print] writes for string arguments [args] and
    the keywords [sep] and [end]. *)
Definition py_print (args : list string) (sep end_ : string) : string :=
  (String.concat sep args ++ end_)%string.

Section Block.

Context {sample hat : Type} {HAT : mcc118 sample hat}.

(** What [main] does, in program order: what it writes to the terminal
    itself, and the effects of the two loops it calls. *)
Inductive output : Type :=
| Write (text : string)
| Effect (e : event sample).

Record state : Type := mkState {
  m_hat : hat;
  m_out : list output
}.

(** Line 81. *)
Definition waiting_message : output :=
  Write (py_print
           [(nl ++ "Waiting for trigger ... hit Ctrl-C to cancel the trigger")%string]
           " " nl).

(** Lines 84-90. *)
Definition header : list output :=
  [Write (py_print
            [(nl ++ "Starting scan ... Press Ctrl-C to stop" ++ nl)%string]
            " " nl);
   Write (py_print ["Samples Read    Scan Count"%string] " " EmptyString)]
  ++ map (fun chan =>
            Write (py_print ["    Channel "%string; py_str chan]
                     EmptyString EmptyString))
       channels
  ++ [Write (py_print [EmptyString] " " nl)].

(** Lines 79-92; [fuel] bounds the passes of each of the two loops. *)
Definition acquisition (fuel : nat) (h : hat) : outcome state :=
  match wait_for_trigger fuel h with
  | Done t =>
      let out := waiting_message :: map Effect (t_out t) ++ header in
      match read_and_display_data fuel (t_hat t) samples_per_channel
              num_channels with
      | Done r => Done (mkState (r_hat r) (out ++ map Effect (r_out r)))
      | Raised e r => Raised e (mkState (r_hat r) (out ++ map Effect (r_out r)))
      | OutOfFuel r => OutOfFuel (mkState (r_hat r) (out ++ map Effect (r_out r)))
      end
  | Raised e t =>
      Raised e (mkState (t_hat t) (waiting_message :: map Effect (t_out t)))
  | OutOfFuel t =>
      OutOfFuel (mkState (t_hat t) (waiting_message :: map Effect (t_out t)))
  end.

End Block.

Arguments output : clear implicits.
Arguments state : clear implicits.

End Main.

(** A scan that stopped before any trigger came. *)
Definition stopped_untriggered (k : nat) : ScanStatus :=
  mkScanStatus false false.

(** * Properties *)

(** ** The [while] loop *)

Section While.

Context {S : Type}.
Variables (cond : S -> bool) (body : S -> step S).

Lemma py_while_exit (fuel : nat) (s : S) :
  cond s = false -> py_while cond body fuel s = Done s.
Proof. intros H. destruct fuel; simpl; now rewrite H. Qed.

Lemma py_while_stuck (s : S) :
  cond s = true -> py_while cond body 0 s = OutOfFuel s.
Proof. intros H. simpl. now rewrite H. Qed.

Lemma py_while_continue (fuel : nat) (s s' : S) :
  cond s = true -> body s = Continue s' ->
  py_while cond body (Datatypes.S fuel) s = py_while cond body fuel s'.
Proof. intros Hc Hb. simpl. now rewrite Hc, Hb. Qed.

Lemma py_while_break (fuel : nat) (s s' : S) :
  cond s = true -> body s = Break s' ->
  py_while cond body (Datatypes.S fuel) s = Done s'.
Proof. intros Hc Hb. simpl. now rewrite Hc, Hb. Qed.

Lemma py_while_throw (fuel : nat) (e : exn) (s s' : S) :
  cond s = true -> body s = Throw e s' ->
  py_while cond body (Datatypes.S fuel) s = Raised e s'.
Proof. intros Hc Hb. simpl. now rewrite Hc, Hb. Qed.

(** What one pass keeps, the loop keeps, however it ends and wherever it
    is after [fuel] passes. *)
Lemma py_while_invariant (P : S -> Prop) :
  (forall s, P s ->
     match body s with
     | Continue s' => P s'
     | Break s' => P s'
     | Throw _ s' => P s'
     end) ->
  forall fuel s, P s -> P (final (py_while cond body fuel s)).
Proof.
  intros Hbody fuel. induction fuel as [|fuel IH]; intros s Hs; simpl.
  - destruct (cond s); exact Hs.
  - destruct (cond s); [|exact Hs].
    specialize (Hbody s Hs). destruct (body s); simpl; auto.
Qed.

End While.

(** ** [wait_for_trigger] on a replayed device *)

Section Trigger.

Context {sample : Type}.
Variables (ss : nat -> ScanStatus) (rs : nat -> ReadResult sample) (q : nat).

Lemma waiting_cond (p : nat) :
  waiting (seen ss p) -> trigger_cond (polled ss rs q p) = true.
Proof. intros [Hr Ht]. unfold trigger_cond, polled. simpl. now rewrite Hr, Ht. Qed.

Lemma trigger_body_polled (p : nat) :
  trigger_body (polled ss rs q p) = Continue (polled ss rs q (S p)).
Proof.
  unfold trigger_body, polled. simpl. f_equal. f_equal.
  now rewrite <- repeat_cons.
Qed.

(** While the statuses say "waiting", every pass is one more poll. *)
Lemma trigger_polls (f g p : nat) :
  (forall k, (k < p + f)%nat -> waiting (seen ss k)) ->
  py_while trigger_cond trigger_body (f + g) (polled ss rs q p) =
  py_while trigger_cond trigger_body g (polled ss rs q (p + f)).
Proof.
  revert p. induction f as [|f IH]; intros p Hw.
  - now rewrite Nat.add_0_r.
  - change (Datatypes.S f + g)%nat with (Datatypes.S (f + g)).
    rewrite (py_while_continue trigger_cond trigger_body (f + g) _ _
               (waiting_cond p (Hw p ltac:(lia))) (trigger_body_polled p)).
    rewrite IH.
    + f_equal. f_equal. lia.
    + intros k Hk. apply Hw. lia.
Qed.

End Trigger.

(** C3. On every sequence of statuses, [wait_for_trigger] returns with the
    first status that is triggered or not running, after polling it and
    nothing more: a triggered status ends the wait whether or not it is
    still running, and so does a status that is not running. *)
Theorem wait_for_trigger_returns_at_first {sample : Type}
    (ss : nat -> ScanStatus) (rs : nat -> ReadResult sample)
    (q n fuel : nat) :
  (forall k, (k < n)%nat -> waiting (ss k)) ->
  triggered (ss n) = true \/ running (ss n) = false ->
  (n < fuel)%nat ->
  wait_for_trigger fuel (mkTape ss rs 0 q) =
  Done (mkTrigger (mkTape ss rs (S n) q) (running (ss n)) (triggered (ss n))
          (repeat ScanStatusCall (S n))).
Proof.
  intros Hw Hn Hf.
  replace fuel with (n + S (fuel - S n))%nat by lia.
  change (wait_for_trigger (n + S (fuel - S n)) (mkTape ss rs 0 q))
    with (py_while trigger_cond trigger_body (n + S (fuel - S n))
            (polled ss rs q 0)).
  assert (Hseen : forall k, (k < S n)%nat -> waiting (seen ss k)).
  { intros [|k] Hk; [now split | apply Hw; lia]. }
  rewrite trigger_polls by (intros k Hk; apply Hseen; lia).
  simpl (0 + n)%nat.
  rewrite (py_while_continue trigger_cond trigger_body _ _ _
             (waiting_cond ss rs q n (Hseen n ltac:(lia)))
             (trigger_body_polled ss rs q n)).
  apply py_while_exit. unfold trigger_cond, polled. simpl.
  destruct Hn as [Ht | Hr].
  - rewrite Ht. apply andb_false_r.
  - now rewrite Hr.
Qed.

(** C8. [wait_for_trigger] has no time-out: on a sequence of statuses that
    are all running and not triggered it is still polling after any number
    of passes, each of which polled the device once. *)
Theorem wait_for_trigger_never_returns {sample : Type}
    (ss : nat -> ScanStatus) (rs : nat -> ReadResult sample) (q : nat) :
  (forall k, waiting (ss k)) ->
  forall fuel,
    wait_for_trigger fuel (mkTape ss rs 0 q) =
    OutOfFuel (mkTrigger (mkTape ss rs fuel q) true false
                 (repeat ScanStatusCall fuel)).
Proof.
  intros Hw fuel.
  assert (Hseen : forall k, waiting (seen ss k)).
  { intros [|k]; [now split | apply Hw]. }
  change (wait_for_trigger fuel (mkTape ss rs 0 q))
    with (py_while trigger_cond trigger_body fuel (polled ss rs q 0)).
  replace fuel with (fuel + 0)%nat at 1 by lia.
  rewrite trigger_polls by (intros k _; apply Hseen).
  simpl (0 + fuel)%nat.
  rewrite py_while_stuck by (apply waiting_cond, Hseen).
  unfold polled. destruct (Hseen fuel) as [Hr Ht]. now rewrite Hr, Ht.
Qed.

(** ** Lists and logs *)

Lemma skipn_nth_error {A : Type} (l : list A) (k : nat) (v : A) :
  nth_error l k = Some v -> skipn k l = v :: skipn (S k) l.
Proof.
  revert k. induction l as [|x l IH]; intros [|k] H; simpl in H; try discriminate.
  - now inversion H.
  - apply (IH k H).
Qed.

Lemma py_getitem_nat {A : Type} (l : list A) (i : Z) :
  0 <= i -> py_getitem l i = nth_error l (Z.to_nat i).
Proof.
  intros Hi. unfold py_getitem.
  destruct (Z.leb_spec 0 i); [reflexivity | lia].
Qed.

Lemma py_slice_nth_error {A : Type} (l : list A) (i j k : nat) :
  (k < j - i)%nat -> nth_error (py_slice l i j) k = nth_error l (i + k).
Proof.
  intros Hk. unfold py_slice.
  rewrite nth_error_firstn.
  destruct (Nat.ltb_spec k (j - i)); [|lia].
  now rewrite nth_error_skipn.
Qed.

Lemma py_slice_length {A : Type} (l : list A) (i j : nat) :
  (i <= j)%nat -> (j <= List.length l)%nat ->
  List.length (py_slice l i j) = (j - i)%nat.
Proof.
  intros Hij Hj. unfold py_slice. rewrite length_firstn, length_skipn. lia.
Qed.

Section Logs.

Context {sample : Type}.

Lemma count_app (p : event sample -> bool) (l1 l2 : list (event sample)) :
  count p (l1 ++ l2) = (count p l1 + count p l2)%nat.
Proof. unfold count. now rewrite filter_app, length_app. Qed.

Lemma printed_app (l1 l2 : list (event sample)) :
  printed (l1 ++ l2) = printed l1 ++ printed l2.
Proof.
  induction l1 as [|e l1 IH]; [reflexivity|].
  destruct e; simpl; rewrite IH; reflexivity.
Qed.

Lemma indexed_app (l1 l2 : list (event sample)) :
  indexed (l1 ++ l2) = indexed l1 ++ indexed l2.
Proof.
  induction l1 as [|e l1 IH]; [reflexivity|].
  destruct e; simpl; rewrite IH; reflexivity.
Qed.

Lemma printed_group_log (from : Z) (vs : list sample) :
  printed (group_log from vs) = vs.
Proof.
  revert from. induction vs as [|v vs IH]; intros from; simpl;
    [reflexivity | now rewrite IH].
Qed.

Lemma indexed_group_log (from : Z) (vs : list sample) :
  indexed (group_log from vs) =
  map (fun i => from + Z.of_nat i) (seq 0 (List.length vs)).
Proof.
  revert from. induction vs as [|v vs IH]; intros from; simpl; [reflexivity|].
  rewrite IH, <- seq_shift, map_map. f_equal; [lia|].
  apply map_ext. intros i. lia.
Qed.

Lemma count_group_log (p : event sample -> bool) (from : Z) (vs : list sample) :
  (forall i, p (GetItem i) = false) -> (forall v, p (PrintVolt v) = false) ->
  count p (group_log from vs) = 0%nat.
Proof.
  intros Hg Hp. revert from. unfold count.
  induction vs as [|v vs IH]; intros from; simpl; [reflexivity|].
  now rewrite Hg, Hp, IH.
Qed.

Lemma fixed_request_group_log (from : Z) (vs : list sample) :
  Forall fixed_request (group_log from vs).
Proof.
  revert from. induction vs as [|v vs IH]; intros from; simpl;
    repeat constructor. apply IH.
Qed.

End Logs.

(** ** One pass of the read loop, on any device *)

Section Pass.

Context {sample hat : Type} {HAT : mcc118 sample hat}.

(** A group that lies inside [d] is displayed whole. *)
Lemma display_group_whole (d : list sample) (index : Z) (n a : nat)
    (s : read_state sample hat) :
  0 <= index -> (Z.to_nat index + a + n <= List.length d)%nat ->
  display_group d index (map Z.of_nat (seq a n)) s =
  Continue (mkRead (r_hat s) (total_samples_read s)
              (r_out s ++ group_log (index + Z.of_nat a)
                            (firstn n (skipn (Z.to_nat index + a) d)))).
Proof.
  intros Hi. revert a s. induction n as [|n IH]; intros a s Hlen.
  - simpl. rewrite app_nil_r. now destruct s.
  - simpl. rewrite py_getitem_nat by lia.
    replace (Z.to_nat (index + Z.of_nat a)) with (Z.to_nat index + a)%nat by lia.
    destruct (nth_error d (Z.to_nat index + a)) as [v|] eqn:Hv.
    + rewrite IH by lia. rewrite (skipn_nth_error _ _ _ Hv). simpl.
      rewrite <- !app_assoc. simpl.
      replace (index + Z.of_nat a + 1) with (index + Z.pos (Pos.of_succ_nat a)) by lia.
      replace (Z.to_nat index + S a)%nat with (S (Z.to_nat index + a)) by lia.
      reflexivity.
    + apply nth_error_None in Hv. lia.
Qed.

(** Whatever [data] holds, the display only logs element reads and
    prints. *)
Lemma display_group_log (d : list sample) (index : Z) (todo : list Z)
    (s : read_state sample hat) :
  exists new,
    r_out (left_by (display_group d index todo s)) = r_out s ++ new /\
    Forall fixed_request new /\
    r_hat (left_by (display_group d index todo s)) = r_hat s.
Proof.
  revert s. induction todo as [|i todo IH]; intros s; simpl.
  - exists []. now rewrite app_nil_r.
  - destruct (py_getitem d (index + i)) as [v|].
    + destruct (IH (emit (PrintVolt v) (emit (GetItem (index + i)) s)))
        as (new & Hout & Hnew & Hhat).
      exists (GetItem (index + i) :: PrintVolt v :: new).
      rewrite Hout, Hhat. simpl. rewrite <- !app_assoc. simpl.
      repeat split; auto. repeat constructor. exact Hnew.
    + exists [GetItem (index + i)]. simpl. repeat split; auto.
      repeat constructor.
Qed.

(** A pass whose read has no overrun, for a positive number of channels:
    the counts are printed, then the last whole group, and the loop goes
    on. *)
Lemma read_body_no_overrun (num_channels : Z) (s : read_state sample hat)
    (r : ReadResult sample) (h : hat) :
  a_in_scan_read read_request_size timeout (r_hat s) = (r, h) ->
  no_overrun r -> 0 < num_channels ->
  read_body num_channels s =
  Continue (mkRead h (total_samples_read s + block num_channels r)
              (r_out s ++ pass_log num_channels (total_samples_read s) r)).
Proof.
  intros Hread [Hh Hb] Hnc.
  unfold read_body, scan_read. rewrite Hread, Hh, Hb.
  unfold py_div. destruct (Z.eqb_spec num_channels 0) as [|_]; [lia|].
  unfold pass_log. fold (block num_channels r).
  set (b := block num_channels r).
  assert (Hle : b * num_channels <= Z.of_nat (List.length (data r))).
  { unfold b, block. rewrite Z.mul_comm. apply Z.mul_div_le. lia. }
  destruct (Z.ltb_spec 0 b) as [Hpos | Hzero].
  - unfold range.
    rewrite display_group_whole by nia.
    unfold emit, py_slice. simpl.
    rewrite Nat.add_0_r, Z.add_0_r.
    replace (Z.to_nat (b * num_channels) -
             Z.to_nat (b * num_channels - num_channels))%nat
      with (Z.to_nat num_channels) by nia.
    rewrite <- !app_assoc. reflexivity.
  - unfold emit. simpl. rewrite <- !app_assoc. reflexivity.
Qed.

(** A pass whose read reports an overrun: the message, then [break]. *)
Lemma read_body_overrun (num_channels : Z) (s : read_state sample hat)
    (r : ReadResult sample) (h : hat) :
  a_in_scan_read read_request_size timeout (r_hat s) = (r, h) ->
  hardware_overrun r = true \/ buffer_overrun r = true ->
  read_body num_channels s =
  Break (mkRead h (total_samples_read s)
           (r_out s ++
            [ScanReadCall read_request_size timeout;
             Print (if hardware_overrun r
                    then nl ++ nl ++ "Hardware overrun" ++ nl
                    else nl ++ nl ++ "Buffer overrun" ++ nl)%string])).
Proof.
  intros Hread Hover.
  unfold read_body, scan_read, emit. rewrite Hread. simpl.
  destruct (hardware_overrun r).
  - rewrite <- !app_assoc. reflexivity.
  - destruct Hover as [Hh | Hb]; [discriminate|].
    rewrite Hb, <- !app_assoc. reflexivity.
Qed.

(** However a pass ends, the requests it made are the fixed one. *)
Lemma read_body_fixed_request (num_channels : Z) (s : read_state sample hat) :
  Forall fixed_request (r_out s) ->
  Forall fixed_request (r_out (left_by (read_body num_channels s))).
Proof.
  intros Hs. unfold read_body, scan_read.
  destruct (a_in_scan_read read_request_size timeout (r_hat s)) as [r h].
  assert (Hread : Forall fixed_request
                    (r_out s ++ [ScanReadCall (sample := sample)
                                   read_request_size timeout])).
  { apply Forall_app. split; [exact Hs|]. repeat constructor. }
  destruct (hardware_overrun r); [|destruct (buffer_overrun r)];
    try (simpl; apply Forall_app; split; [exact Hread | repeat constructor]).
  destruct (py_div _ num_channels) as [b|]; [|exact Hread].
  match goal with
  | |- context [emit (PrintCounts ?x ?t) ?st] =>
      assert (Hcounts : Forall fixed_request (r_out (emit (PrintCounts x t) st)))
        by (simpl; apply Forall_app; split; [exact Hread | repeat constructor]);
      set (s3 := emit (PrintCounts x t) st) in *
  end.
  simpl. destruct (0 <? b); [|exact Hcounts].
  destruct (display_group_log (data r) (b * num_channels - num_channels)
              (range num_channels) s3) as (new & Hout & Hnew & _).
  destruct (display_group (data r) (b * num_channels - num_channels)
              (range num_channels) s3) as [s4 | s4 | e s4];
    simpl in Hout |- *; rewrite Hout;
    repeat (apply Forall_app; split); auto; repeat constructor.
Qed.

End Pass.

(** ** The read loop on a replayed device *)

Section Replay.

Context {sample : Type}.
Variables (ss : nat -> ScanStatus) (rs : nat -> ReadResult sample) (p : nat).
Variables (samples_per_channel num_channels : Z).

Lemma count_pass_log_read (total : Z) (r : ReadResult sample) :
  count is_read (pass_log num_channels total r) = 1%nat.
Proof.
  unfold pass_log. change (?a :: ?b :: ?l) with ([a; b] ++ l).
  rewrite count_app. destruct (0 <? block num_channels r); [|reflexivity].
  rewrite count_app, count_group_log by reflexivity. reflexivity.
Qed.

Lemma count_pass_log_line (total : Z) (r : ReadResult sample) :
  count is_display_line (pass_log num_channels total r) = 1%nat.
Proof.
  unfold pass_log. change (?a :: ?b :: ?l) with ([a; b] ++ l).
  rewrite count_app. destruct (0 <? block num_channels r); [|reflexivity].
  rewrite count_app, count_group_log by reflexivity. reflexivity.
Qed.

Lemma count_log_read (k : nat) :
  count is_read (log rs num_channels k) = k.
Proof.
  induction k as [|k IH]; [reflexivity|].
  simpl. rewrite count_app, IH, count_pass_log_read. lia.
Qed.

Lemma count_log_line (k : nat) :
  count is_display_line (log rs num_channels k) = k.
Proof.
  induction k as [|k IH]; [reflexivity|].
  simpl. rewrite count_app, IH, count_pass_log_line. lia.
Qed.

Lemma read_cond_after (k : nat) :
  totals rs num_channels k < samples_per_channel ->
  read_cond samples_per_channel (after ss rs p num_channels k) = true.
Proof. intros H. unfold read_cond, after. simpl. now apply Z.ltb_lt. Qed.

Lemma read_cond_after_not (k : nat) :
  samples_per_channel <= totals rs num_channels k ->
  read_cond samples_per_channel (after ss rs p num_channels k) = false.
Proof. intros H. unfold read_cond, after. simpl. now apply Z.ltb_ge. Qed.

(** The first target that the totals reach within [f] reads, if any. *)
Lemma crossing_within (f : nat) :
  (forall j, (j <= f)%nat -> totals rs num_channels j < samples_per_channel) \/
  (exists n, (n <= f)%nat /\
             first_crossing rs samples_per_channel num_channels n).
Proof.
  induction f as [|f [IH | (n & Hn & Hfirst)]].
  - destruct (Z.lt_ge_cases (totals rs num_channels 0) samples_per_channel)
      as [Hlt | Hge].
    + left. intros j Hj. now replace j with 0%nat by lia.
    + right. exists 0%nat. repeat split; [lia | exact Hge | intros m Hm; lia].
  - destruct (Z.lt_ge_cases (totals rs num_channels (S f)) samples_per_channel)
      as [Hlt | Hge].
    + left. intros j Hj. destruct (Nat.eq_dec j (S f)) as [-> | Hne];
        [exact Hlt | apply IH; lia].
    + right. exists (S f). repeat split; [lia | exact Hge |].
      intros m Hm. apply IH. lia.
  - right. exists n. split; [lia | exact Hfirst].
Qed.

Lemma first_crossing_unique (n m : nat) :
  first_crossing rs samples_per_channel num_channels n ->
  first_crossing rs samples_per_channel num_channels m -> n = m.
Proof.
  intros [Hn Hn'] [Hm Hm'].
  destruct (Nat.lt_trichotomy n m) as [H | [H | H]]; [|exact H|].
  - specialize (Hm' n H). lia.
  - specialize (Hn' m H). lia.
Qed.

Hypothesis positive_channels : 0 < num_channels.
Hypothesis no_overruns : forall k, no_overrun (rs k).

Lemma read_body_after (k : nat) :
  read_body num_channels (after ss rs p num_channels k) =
  Continue (after ss rs p num_channels (S k)).
Proof.
  rewrite (read_body_no_overrun num_channels
             (after ss rs p num_channels k) (rs k) (mkTape ss rs p (S k)));
    [reflexivity | reflexivity | apply no_overruns | exact positive_channels].
Qed.

(** While the total is below the target, every pass is one more read. *)
Lemma read_passes (f g k : nat) :
  (forall j, (k <= j < k + f)%nat ->
             totals rs num_channels j < samples_per_channel) ->
  read_loop samples_per_channel num_channels (f + g)
    (after ss rs p num_channels k) =
  read_loop samples_per_channel num_channels g
    (after ss rs p num_channels (k + f)).
Proof.
  unfold read_loop. revert k. induction f as [|f IH]; intros k Hlt.
  - now rewrite Nat.add_0_r.
  - change (S f + g)%nat with (S (f + g)).
    rewrite (py_while_continue _ _ (f + g) _ _
               (read_cond_after k (Hlt k ltac:(lia))) (read_body_after k)).
    rewrite IH by (intros j Hj; apply Hlt; lia).
    f_equal. f_equal. lia.
Qed.

(** The loop ends at the first crossing of the target, given the fuel to
    get there. *)
Lemma read_loop_done (n fuel : nat) :
  first_crossing rs samples_per_channel num_channels n -> (n <= fuel)%nat ->
  read_loop samples_per_channel num_channels fuel
    (after ss rs p num_channels 0) =
  Done (after ss rs p num_channels n).
Proof.
  intros [Hge Hlt] Hfuel.
  replace fuel with (n + (fuel - n))%nat by lia.
  rewrite read_passes by (intros j Hj; apply Hlt; lia).
  apply py_while_exit, read_cond_after_not. exact Hge.
Qed.

(** The loop is still reading after [fuel] passes that all left the total
    below the target. *)
Lemma read_loop_out_of_fuel (fuel : nat) :
  (forall j, (j <= fuel)%nat ->
             totals rs num_channels j < samples_per_channel) ->
  read_loop samples_per_channel num_channels fuel
    (after ss rs p num_channels 0) =
  OutOfFuel (after ss rs p num_channels fuel).
Proof.
  intros Hlt.
  replace fuel with (fuel + 0)%nat at 1 by lia.
  rewrite read_passes by (intros j Hj; apply Hlt; lia).
  apply py_while_stuck, read_cond_after. apply Hlt. lia.
Qed.

End Replay.

Lemma totals_small {sample : Type} (rs : nat -> ReadResult sample)
    (num_channels : Z) (k : nat) :
  (forall j, 0 <= Z.of_nat (List.length (data (rs j))) < num_channels) ->
  totals rs num_channels k = 0.
Proof.
  intros Hsmall. induction k as [|k IH]; [reflexivity|].
  simpl. unfold block. rewrite IH, Z.div_small by apply Hsmall. reflexivity.
Qed.

Lemma slice_elements {A : Type} (l : list A) (i n : nat) :
  (i + n <= List.length l)%nat ->
  map Some (firstn n (skipn i l)) = map (nth_error l) (seq i n).
Proof.
  revert i. induction n as [|n IH]; intros i Hlen; [reflexivity|].
  destruct (nth_error l i) as [v|] eqn:Hv.
  - rewrite (skipn_nth_error _ _ _ Hv). cbn [firstn map seq].
    rewrite Hv. f_equal. apply IH. lia.
  - apply nth_error_None in Hv. lia.
Qed.

(** ** The claims *)

(** C1. A read of the loop that reports a hardware overrun, or a buffer
    overrun without a hardware overrun, ends the loop in that pass: after
    the read the log gains the message of that overrun and nothing else,
    so no element of [data] is read; the running total is as it was, and
    the device is as that read left it, so nothing was read after it. *)
Theorem overrun_stops_the_loop {sample hat : Type} {HAT : mcc118 sample hat}
    (samples_per_channel num_channels : Z) (fuel : nat)
    (s : read_state sample hat) (r : ReadResult sample) (h : hat) :
  read_cond samples_per_channel s = true ->
  a_in_scan_read read_request_size timeout (r_hat s) = (r, h) ->
  hardware_overrun r = true \/ buffer_overrun r = true ->
  read_loop samples_per_channel num_channels (S fuel) s =
  Done (mkRead h (total_samples_read s)
          (r_out s ++
           [ScanReadCall read_request_size timeout;
            Print (if hardware_overrun r
                   then nl ++ nl ++ "Hardware overrun" ++ nl
                   else nl ++ nl ++ "Buffer overrun" ++ nl)%string])).
Proof.
  intros Hcond Hread Hover. unfold read_loop.
  apply py_while_break; [exact Hcond|].
  now apply read_body_overrun.
Qed.

(** C2. On every sequence of reads without overrun, for a positive number
    of channels, [read_and_display_data] returns exactly when the running
    total first reaches the target: if the [n]-th total is the first one
    at or above [samples_per_channel], the function returns after exactly
    [n] reads with that total; whenever it returns, the number of reads it
    made is that [n]; and as long as the totals stay below the target it
    is still reading. *)
Theorem read_loop_ends_at_first_crossing {sample : Type}
    (ss : nat -> ScanStatus) (rs : nat -> ReadResult sample) (p : nat)
    (samples_per_channel num_channels : Z) :
  0 < num_channels ->
  (forall k, no_overrun (rs k)) ->
  (forall n fuel,
     first_crossing rs samples_per_channel num_channels n ->
     (n <= fuel)%nat ->
     read_and_display_data fuel (mkTape ss rs p 0) samples_per_channel
       num_channels =
     Done (mkRead (mkTape ss rs p n) (totals rs num_channels n)
             (log rs num_channels n ++ [Print nl]))) /\
  (forall fuel s,
     read_and_display_data fuel (mkTape ss rs p 0) samples_per_channel
       num_channels = Done s ->
     first_crossing rs samples_per_channel num_channels (read_calls (r_hat s)) /\
     count is_read (r_out s) = read_calls (r_hat s) /\
     total_samples_read s = totals rs num_channels (read_calls (r_hat s))) /\
  (forall fuel,
     (forall j, (j <= fuel)%nat ->
                totals rs num_channels j < samples_per_channel) ->
     read_and_display_data fuel (mkTape ss rs p 0) samples_per_channel
       num_channels =
     OutOfFuel (mkRead (mkTape ss rs p fuel) (totals rs num_channels fuel)
                  (log rs num_channels fuel))).
Proof.
  intros Hnc Hrs.
  assert (Hdone : forall n fuel,
            first_crossing rs samples_per_channel num_channels n ->
            (n <= fuel)%nat ->
            read_and_display_data fuel (mkTape ss rs p 0) samples_per_channel
              num_channels =
            Done (mkRead (mkTape ss rs p n) (totals rs num_channels n)
                    (log rs num_channels n ++ [Print nl]))).
  { intros n fuel Hfirst Hfuel. unfold read_and_display_data.
    change (mkRead (mkTape ss rs p 0) 0 [])
      with (after ss rs p num_channels 0).
    now rewrite (read_loop_done ss rs p _ _ Hnc Hrs n fuel Hfirst Hfuel). }
  assert (Hfuel : forall fuel,
            (forall j, (j <= fuel)%nat ->
                       totals rs num_channels j < samples_per_channel) ->
            read_and_display_data fuel (mkTape ss rs p 0) samples_per_channel
              num_channels =
            OutOfFuel (after ss rs p num_channels fuel)).
  { intros fuel Hlt. unfold read_and_display_data.
    change (mkRead (mkTape ss rs p 0) 0 [])
      with (after ss rs p num_channels 0).
    now rewrite (read_loop_out_of_fuel ss rs p _ _ Hnc Hrs fuel Hlt). }
  split; [exact Hdone | split; [|exact Hfuel]].
  intros fuel s Hs.
  destruct (crossing_within rs samples_per_channel num_channels fuel)
    as [Hlt | (n & Hn & Hfirst)].
  - rewrite (Hfuel fuel Hlt) in Hs. discriminate.
  - rewrite (Hdone n fuel Hfirst Hn) in Hs. inversion Hs; subst s; simpl.
    split; [exact Hfirst | split; [|reflexivity]].
    rewrite count_app, count_log_read. unfold count. simpl. lia.
Qed.

(** C4. In a pass whose read has no overrun, for a positive number of
    channels, the samples per channel that the loop counts, prints and adds
    to its total is the floor of [len(data) / num_channels]: the largest
    [q] with [q * num_channels <= len(data)]; when [num_channels] divides
    [len(data)], [q * num_channels] is [len(data)] itself. *)
Theorem samples_read_per_channel_is_floor {sample hat : Type}
    {HAT : mcc118 sample hat} (num_channels : Z)
    (s : read_state sample hat) (r : ReadResult sample) (h : hat) :
  a_in_scan_read read_request_size timeout (r_hat s) = (r, h) ->
  no_overrun r ->
  0 < num_channels ->
  exists q new,
    read_body num_channels s =
    Continue (mkRead h (total_samples_read s + q) (r_out s ++ new)) /\
    In (PrintCounts q (total_samples_read s + q)) new /\
    q * num_channels <= Z.of_nat (List.length (data r))
      < q * num_channels + num_channels /\
    ((num_channels | Z.of_nat (List.length (data r))) ->
     q * num_channels = Z.of_nat (List.length (data r))).
Proof.
  intros Hread Hr Hnc.
  exists (block num_channels r), (pass_log num_channels (total_samples_read s) r).
  split; [now apply read_body_no_overrun|].
  split; [unfold pass_log; simpl; auto|].
  unfold block.
  pose proof (Z.div_mod (Z.of_nat (List.length (data r))) num_channels
                ltac:(lia)) as Hdm.
  pose proof (Z.mod_pos_bound (Z.of_nat (List.length (data r))) num_channels
                Hnc) as Hm.
  split; [nia|].
  intros Hdiv. apply Z.mod_divide in Hdiv; [|lia]. nia.
Qed.

(** C5. In a pass whose read has no overrun and 2000 samples, with four
    channels, the loop counts 500 samples per channel and displays the
    elements of [data] at the indices 1996, 1997, 1998 and 1999, in that
    order: the slice [data[1996:2000]]. *)
Theorem last_group_of_2000_by_4 {sample hat : Type} {HAT : mcc118 sample hat}
    (s : read_state sample hat) (r : ReadResult sample) (h : hat) :
  a_in_scan_read read_request_size timeout (r_hat s) = (r, h) ->
  no_overrun r ->
  List.length (data r) = 2000%nat ->
  exists new,
    read_body 4 s =
    Continue (mkRead h (total_samples_read s + 500) (r_out s ++ new)) /\
    In (PrintCounts 500 (total_samples_read s + 500)) new /\
    indexed new = [1996; 1997; 1998; 1999] /\
    printed new = py_slice (data r) 1996 2000 /\
    map Some (printed new) =
    map (py_getitem (data r)) [1996; 1997; 1998; 1999].
Proof.
  intros Hread Hr Hlen.
  assert (Hb : block 4 r = 500) by (unfold block; rewrite Hlen; reflexivity).
  exists (pass_log 4 (total_samples_read s) r).
  split; [rewrite <- Hb; now apply read_body_no_overrun|].
  unfold pass_log. rewrite Hb.
  change (0 <? 500) with true. cbv iota.
  change (500 * 4 - 4) with 1996.
  change (Z.to_nat 1996) with 1996%nat.
  change (Z.to_nat (500 * 4)) with 2000%nat.
  assert (Hprinted :
            printed (ScanReadCall read_request_size timeout ::
                     PrintCounts 500 (total_samples_read s + 500) ::
                     group_log 1996 (py_slice (data r) 1996 2000) ++
                     [Flush; Sleep (1 # 10)]) =
            py_slice (data r) 1996 2000).
  { cbn [printed]. rewrite printed_app, printed_group_log.
    cbn [printed]. apply app_nil_r. }
  split; [right; left; reflexivity|].
  split.
  - cbn [indexed]. rewrite indexed_app, indexed_group_log.
    rewrite py_slice_length by lia.
    change (2000 - 1996)%nat with 4%nat. reflexivity.
  - split; [exact Hprinted|].
    rewrite Hprinted. unfold py_slice.
    change (2000 - 1996)%nat with 4%nat.
    rewrite slice_elements by lia. reflexivity.
Qed.

(** C6. With a target of 1000 samples per channel and four channels, on a
    device whose every read has no overrun and 2000 samples, the function
    returns after exactly two reads, having printed two display lines, with
    a total of 1000. *)
Theorem two_reads_of_500_reach_1000 {sample : Type}
    (ss : nat -> ScanStatus) (rs : nat -> ReadResult sample) (p fuel : nat) :
  (forall k, no_overrun (rs k) /\ List.length (data (rs k)) = 2000%nat) ->
  (2 <= fuel)%nat ->
  exists s,
    read_and_display_data fuel (mkTape ss rs p 0) 1000 4 = Done s /\
    read_calls (r_hat s) = 2%nat /\
    count is_read (r_out s) = 2%nat /\
    count is_display_line (r_out s) = 2%nat /\
    total_samples_read s = 1000.
Proof.
  intros Hrs Hfuel.
  assert (Hb : forall k, block 4 (rs k) = 500).
  { intros k. unfold block. destruct (Hrs k) as [_ Hlen].
    rewrite Hlen. reflexivity. }
  assert (Hfirst : first_crossing rs 1000 4 2).
  { split.
    - simpl. rewrite !Hb. lia.
    - intros [|[|m]] Hm; simpl; rewrite ?Hb; lia. }
  exists (emit (Print nl) (after ss rs p 4 2)).
  split.
  - unfold read_and_display_data.
    change (mkRead (mkTape ss rs p 0) 0 []) with (after ss rs p 4 0).
    now rewrite (read_loop_done ss rs p 1000 4 ltac:(lia)
                   (fun k => proj1 (Hrs k)) 2 fuel Hfirst Hfuel).
  - split; [reflexivity|].
    split; [|split].
    + cbn [emit after r_out]. rewrite count_app, count_log_read. reflexivity.
    + cbn [emit after r_out]. rewrite count_app, count_log_line. reflexivity.
    + cbn [emit after total_samples_read totals]. rewrite !Hb. reflexivity.
Qed.

(** C7. Every read that [read_and_display_data] asks of the device, on
    any device and for any target and number of channels, at any point of
    its run and however it ends, asks for 500 samples with a time-out of
    5.0. *)
Theorem every_read_request_is_fixed {sample hat : Type}
    {HAT : mcc118 sample hat} (fuel : nat) (h : hat)
    (samples_per_channel num_channels : Z) :
  Forall fixed_request
    (r_out (final (read_and_display_data fuel h samples_per_channel
                     num_channels))).
Proof.
  unfold read_and_display_data, read_loop.
  pose proof (py_while_invariant (read_cond samples_per_channel)
                (read_body num_channels)
                (fun s => Forall fixed_request (r_out s))) as Hinv.
  specialize (Hinv (fun s Hs =>
    match read_body num_channels s as st
      return Forall fixed_request (r_out (left_by st)) ->
             match st with
             | Continue s' => Forall fixed_request (r_out s')
             | Break s' => Forall fixed_request (r_out s')
             | Throw _ s' => Forall fixed_request (r_out s')
             end
    with
    | Continue _ => fun H => H
    | Break _ => fun H => H
    | Throw _ _ => fun H => H
    end (read_body_fixed_request num_channels s Hs))).
  specialize (Hinv fuel (mkRead h 0 []) (Forall_nil _)).
  destruct (py_while _ _ fuel _) as [s | e s | s]; simpl in *; auto.
  apply Forall_app. split; [exact Hinv | repeat constructor].
Qed.

(** C9. In a pass whose read has no overrun and brings at least one
    sample per channel, for a positive number of channels, the display
    reads [data] at [index + i] for [i] in [range(num_channels)], every one
    of these indices lies inside [data], and no exception is raised;
    [len(data)] need not be a multiple of [num_channels]. *)
Theorem displayed_indices_in_bounds {sample hat : Type}
    {HAT : mcc118 sample hat} (num_channels : Z)
    (s : read_state sample hat) (r : ReadResult sample) (h : hat) :
  a_in_scan_read read_request_size timeout (r_hat s) = (r, h) ->
  no_overrun r ->
  0 < num_channels ->
  0 < block num_channels r ->
  exists new s',
    read_body num_channels s = Continue s' /\
    r_out s' = r_out s ++ new /\
    indexed new =
    map (fun i => block num_channels r * num_channels - num_channels + i)
      (range num_channels) /\
    Forall (fun i => 0 <= i < Z.of_nat (List.length (data r))) (indexed new).
Proof.
  intros Hread Hr Hnc Hpos.
  set (b := block num_channels r) in *.
  assert (Hle : b * num_channels <= Z.of_nat (List.length (data r))).
  { unfold b, block. rewrite Z.mul_comm. apply Z.mul_div_le. lia. }
  assert (Hindexed :
            indexed (pass_log num_channels (total_samples_read s) r) =
            map (fun i => b * num_channels - num_channels + i)
              (range num_channels)).
  { unfold pass_log. fold b.
    destruct (Z.ltb_spec 0 b) as [_ | Hno]; [|lia].
    cbn [indexed]. rewrite indexed_app, indexed_group_log.
    rewrite py_slice_length by nia.
    cbn [indexed]. rewrite app_nil_r. unfold range. rewrite map_map.
    replace (Z.to_nat (b * num_channels) -
             Z.to_nat (b * num_channels - num_channels))%nat
      with (Z.to_nat num_channels) by nia.
    reflexivity. }
  exists (pass_log num_channels (total_samples_read s) r).
  eexists.
  split; [exact (read_body_no_overrun num_channels s r h Hread Hr Hnc)|].
  split; [reflexivity|]. split; [exact Hindexed|].
  rewrite Hindexed. apply Forall_forall. intros i Hi.
  apply in_map_iff in Hi. destruct Hi as (j & <- & Hj).
  unfold range in Hj. apply in_map_iff in Hj. destruct Hj as (k & <- & Hk).
  apply in_seq in Hk. nia.
Qed.

(** C10. The read loop makes no progress by itself: for a target above
    zero, on a device whose every read has no overrun and fewer samples
    than channels, the total stays at zero and the function is still
    reading after any number of passes, each of which made one read. *)
Theorem read_loop_no_progress_without_samples {sample : Type}
    (ss : nat -> ScanStatus) (rs : nat -> ReadResult sample) (p : nat)
    (samples_per_channel num_channels : Z) :
  0 < samples_per_channel ->
  (forall k, no_overrun (rs k) /\
             Z.of_nat (List.length (data (rs k))) < num_channels) ->
  forall fuel,
  exists s,
    read_and_display_data fuel (mkTape ss rs p 0) samples_per_channel
      num_channels = OutOfFuel s /\
    total_samples_read s = 0 /\
    read_calls (r_hat s) = fuel /\
    count is_read (r_out s) = fuel.
Proof.
  intros Hspc Hrs fuel.
  assert (Hnc : 0 < num_channels) by (destruct (Hrs 0%nat) as [_ Hlt]; lia).
  assert (Hzero : forall k, totals rs num_channels k = 0).
  { intros k. apply totals_small. intros j.
    destruct (Hrs j) as [_ Hlt]. lia. }
  exists (after ss rs p num_channels fuel).
  split.
  - unfold read_and_display_data.
    change (mkRead (mkTape ss rs p 0) 0 [])
      with (after ss rs p num_channels 0).
    rewrite (read_loop_out_of_fuel ss rs p samples_per_channel num_channels
               Hnc (fun k => proj1 (Hrs k)) fuel); [reflexivity|].
    intros j _. rewrite Hzero. exact Hspc.
  - split; [apply Hzero|]. split; [reflexivity|]. apply count_log_read.
Qed.

(** ** The claims on the example devices *)

Lemma overrun_stops_the_loop_example :
  read_loop 10 4 1 (fresh buffer_overruns) =
  Done (mkRead (mkTape never_triggered buffer_overruns 0 1) 0
          [ScanReadCall 500 (5 # 1);
           Print (nl ++ nl ++ "Buffer overrun" ++ nl)%string]).
Proof.
  apply (overrun_stops_the_loop 10 4 0 (fresh buffer_overruns)
           (buffer_overruns 0) (mkTape never_triggered buffer_overruns 0 1)).
  - reflexivity.
  - reflexivity.
  - right. reflexivity.
Defined.

Lemma read_loop_ends_at_first_crossing_example :
  read_and_display_data 5 (mkTape never_triggered nine_samples 0 0) 4 4 =
  Done (mkRead (mkTape never_triggered nine_samples 0 2) 4
          (log nine_samples 4 2 ++ [Print nl])).
Proof.
  apply (proj1 (read_loop_ends_at_first_crossing never_triggered nine_samples
                  0 4 4 ltac:(lia) (fun k => conj eq_refl eq_refl)) 2%nat 5%nat).
  - split.
    + apply Z.leb_le. reflexivity.
    + intros [|[|m]] Hm; [reflexivity | reflexivity | lia].
  - lia.
Defined.

Lemma wait_for_trigger_returns_at_first_example :
  wait_for_trigger 5 (mkTape trigger_at_third nine_samples 0 0) =
  Done (mkTrigger (mkTape trigger_at_third nine_samples 3 0) true true
          [ScanStatusCall; ScanStatusCall; ScanStatusCall]).
Proof.
  apply (wait_for_trigger_returns_at_first trigger_at_third nine_samples
           0 2 5).
  - intros [|[|k]] Hk; [split; reflexivity | split; reflexivity | lia].
  - left. reflexivity.
  - lia.
Defined.

Lemma samples_read_per_channel_is_floor_example :
  exists q new,
    read_body 4 (fresh nine_samples) =
    Continue (mkRead (mkTape never_triggered nine_samples 0 1) (0 + q)
                ([] ++ new)) /\
    In (PrintCounts q (0 + q)) new /\
    q * 4 <= 9 < q * 4 + 4 /\
    ((4 | 9) -> q * 4 = 9).
Proof.
  apply (samples_read_per_channel_is_floor 4 (fresh nine_samples)
           (nine_samples 0) (mkTape never_triggered nine_samples 0 1)).
  - reflexivity.
  - split; reflexivity.
  - lia.
Defined.

Lemma last_group_of_2000_by_4_example :
  exists new,
    read_body 4 (fresh full_blocks) =
    Continue (mkRead (mkTape never_triggered full_blocks 0 1) (0 + 500)
                ([] ++ new)) /\
    In (PrintCounts 500 (0 + 500)) new /\
    indexed new = [1996; 1997; 1998; 1999] /\
    printed new = py_slice (data (full_blocks 0)) 1996 2000 /\
    map Some (printed new) =
    map (py_getitem (data (full_blocks 0))) [1996; 1997; 1998; 1999].
Proof.
  apply (last_group_of_2000_by_4 (fresh full_blocks) (full_blocks 0)
           (mkTape never_triggered full_blocks 0 1)).
  - reflexivity.
  - split; reflexivity.
  - reflexivity.
Defined.

Lemma two_reads_of_500_reach_1000_example :
  exists s,
    read_and_display_data 2 (mkTape never_triggered full_blocks 0 0) 1000 4 =
    Done s /\
    read_calls (r_hat s) = 2%nat /\
    count is_read (r_out s) = 2%nat /\
    count is_display_line (r_out s) = 2%nat /\
    total_samples_read s = 1000.
Proof.
  apply (two_reads_of_500_reach_1000 never_triggered full_blocks 0 2).
  - intros k. split; [split; reflexivity | reflexivity].
  - lia.
Defined.

Lemma wait_for_trigger_never_returns_example :
  wait_for_trigger 7 (mkTape never_triggered nine_samples 0 0) =
  OutOfFuel (mkTrigger (mkTape never_triggered nine_samples 7 0) true false
               (repeat ScanStatusCall 7)).
Proof.
  apply (wait_for_trigger_never_returns never_triggered nine_samples 0).
  intros k. split; reflexivity.
Defined.

Lemma displayed_indices_in_bounds_example :
  exists new s',
    read_body 4 (fresh nine_samples) = Continue s' /\
    r_out s' = [] ++ new /\
    indexed new = map (fun i => 2 * 4 - 4 + i) (range 4) /\
    Forall (fun i => 0 <= i < 9) (indexed new).
Proof.
  apply (displayed_indices_in_bounds 4 (fresh nine_samples) (nine_samples 0)
           (mkTape never_triggered nine_samples 0 1)).
  - reflexivity.
  - split; reflexivity.
  - lia.
  - reflexivity.
Defined.

Lemma read_loop_no_progress_without_samples_example :
  exists s,
    read_and_display_data 3 (mkTape never_triggered timed_out_reads 0 0) 10 4 =
    OutOfFuel s /\
    total_samples_read s = 0 /\
    read_calls (r_hat s) = 3%nat /\
    count is_read (r_out s) = 3%nat.
Proof.
  apply (read_loop_no_progress_without_samples never_triggered timed_out_reads
           0 10 4).
  - lia.
  - intros k. split; [split; reflexivity | simpl; lia].
Defined.

(** * Further properties of the two loops *)

(** ** How a loop can end *)

Section WhileEnds.

Context {S : Type}.
Variables (cond : S -> bool) (body : S -> step S).

(** A loop raises only what a pass of its body raises. *)
Lemma py_while_raised (Q : exn -> Prop) :
  (forall s e s', body s = Throw e s' -> Q e) ->
  forall fuel s e s', py_while cond body fuel s = Raised e s' -> Q e.
Proof.
  intros Hbody fuel. induction fuel as [|fuel IH]; intros s e s'; simpl.
  - destruct (cond s); discriminate.
  - destruct (cond s); [|discriminate].
    destruct (body s) as [s1 | s1 | e1 s1] eqn:Hb.
    + apply IH.
    + discriminate.
    + intros H. inversion H; subst. exact (Hbody s e s' Hb).
Qed.

End WhileEnds.

(** ** [wait_for_trigger] on any device *)

Section TriggerAny.

Context {sample hat : Type} {HAT : mcc118 sample hat}.



End TriggerAny.


(** ** One pass of the read loop, on any device and for any arguments *)

Section PassAny.

Context {sample hat : Type} {HAT : mcc118 sample hat}.

(** The display logs no device call and no display line. *)
Lemma display_group_quiet (d : list sample) (index : Z) (todo : list Z)
    (s : read_state sample hat) :
  exists new,
    r_out (left_by (display_group d index todo s)) = r_out s ++ new /\
    count is_read new = 0%nat /\ count is_display_line new = 0%nat.
Proof.
  revert s. induction todo as [|i todo IH]; intros s; simpl.
  - exists []. now rewrite app_nil_r.
  - destruct (py_getitem d (index + i)) as [v|].
    + destruct (IH (emit (PrintVolt v) (emit (GetItem (index + i)) s)))
        as (new & Hout & Hr & Hl).
      exists (GetItem (index + i) :: PrintVolt v :: new).
      rewrite Hout. simpl. rewrite <- !app_assoc. simpl.
      repeat split; [exact Hr | exact Hl].
    + exists [GetItem (index + i)]. simpl. repeat split.
Qed.

(** The display has no [break] of its own. *)
Lemma display_group_no_break (d : list sample) (index : Z) (todo : list Z)
    (s s' : read_state sample hat) :
  display_group d index todo s <> Break s'.
Proof.
  revert s. induction todo as [|i todo IH]; intros s; simpl.
  - discriminate.
  - destruct (py_getitem d (index + i)); [apply IH | discriminate].
Qed.

(** For a negative number of channels no read brings a positive count. *)
Lemma block_negative_channels (len num_channels : Z) :
  0 <= len -> num_channels < 0 -> len / num_channels <= 0.
Proof.
  intros Hlen Hnc.
  pose proof (Z.div_mod len num_channels ltac:(lia)) as Hdm.
  pose proof (Z.mod_neg_bound len num_channels Hnc) as Hm.
  nia.
Qed.

(** A pass raises nothing but [ZeroDivisionError], and this only for no
    channels at all. *)
Lemma read_body_throw (num_channels : Z) (s s' : read_state sample hat)
    (e : exn) :
  read_body num_channels s = Throw e s' ->
  e = ZeroDivisionError /\ num_channels = 0.
Proof.
  destruct (a_in_scan_read read_request_size timeout (r_hat s)) as [r h] eqn:Hread.
  destruct (hardware_overrun r) eqn:Hh;
    [|destruct (buffer_overrun r) eqn:Hb].
  - rewrite (read_body_overrun num_channels s r h Hread (or_introl Hh)).
    discriminate.
  - rewrite (read_body_overrun num_channels s r h Hread (or_intror Hb)).
    discriminate.
  - destruct (Z.lt_trichotomy num_channels 0) as [Hneg | [Hzero | Hpos]].
    + unfold read_body, scan_read. rewrite Hread, Hh, Hb. unfold py_div.
      destruct (Z.eqb_spec num_channels 0) as [|_]; [lia|].
      pose proof (block_negative_channels
                    (Z.of_nat (List.length (data r))) num_channels
                    ltac:(lia) Hneg) as Hle.
      destruct (Z.ltb_spec 0 (Z.of_nat (List.length (data r)) / num_channels));
        [lia | discriminate].
    + subst num_channels. unfold read_body, scan_read.
      rewrite Hread, Hh, Hb. simpl. intros H. inversion H. now split.
    + rewrite (read_body_no_overrun num_channels s r h Hread (conj Hh Hb) Hpos).
      discriminate.
Qed.

(** What a pass adds to the log: one read, and one display line unless it
    ends the loop. *)
Lemma read_body_counts (num_channels : Z) (s : read_state sample hat) :
  count is_read (r_out (left_by (read_body num_channels s))) =
  S (count is_read (r_out s)) /\
  match read_body num_channels s with
  | Continue s' =>
      count is_display_line (r_out s') = S (count is_display_line (r_out s))
  | Break s' =>
      count is_display_line (r_out s') = count is_display_line (r_out s)
  | Throw _ s' =>
      count is_display_line (r_out s') = count is_display_line (r_out s)
  end.
Proof.
  pose proof (read_body_throw num_channels s) as Hthrow.
  unfold read_body, scan_read in *.
  destruct (a_in_scan_read read_request_size timeout (r_hat s)) as [r h].
  destruct (hardware_overrun r); [|destruct (buffer_overrun r)];
    try (simpl; rewrite !count_app; unfold count; simpl; split; lia).
  destruct (py_div _ num_channels) as [b|] eqn:Hdiv;
    [|simpl; rewrite !count_app; unfold count; simpl; split; lia].
  cbv zeta in *.
  match goal with
  | |- context [emit (PrintCounts ?x ?t) ?st] =>
      set (s3 := emit (PrintCounts x t) st) in *
  end.
  assert (Hr3 : count is_read (r_out s3) = S (count is_read (r_out s)))
    by (simpl; rewrite !count_app; unfold count; simpl; lia).
  assert (Hl3 : count is_display_line (r_out s3) =
                S (count is_display_line (r_out s)))
    by (simpl; rewrite !count_app; unfold count; simpl; lia).
  clearbody s3.
  destruct (0 <? b); [|now split].
  destruct (display_group_quiet (data r) (b * num_channels - num_channels)
              (range num_channels) s3) as (new & Hout & Hr & Hl).
  destruct (display_group (data r) (b * num_channels - num_channels)
              (range num_channels) s3) as [s4 | s4 | e s4] eqn:Hgroup.
  - simpl in Hout |- *. rewrite Hout, !count_app, Hr, Hl, Hr3, Hl3.
    unfold count. simpl. split; lia.
  - now apply display_group_no_break in Hgroup.
  - (* the display raised: there is a channel, and [read_body_throw] says
       there is none *)
    destruct (Hthrow s4 e eq_refl) as [_ Hz]. subst num_channels.
    unfold py_div in Hdiv. simpl in Hdiv. discriminate.
Qed.

End PassAny.

(** ** The read loop on any device *)

Section LoopAny.

Context {sample hat : Type} {HAT : mcc118 sample hat}.
Variables (samples_per_channel num_channels : Z).

(** Reads and display lines from any state of the loop: a run that is
    still going made one read and one line in each pass; a run that ended
    made a read per pass, and a line per read but possibly the last; a run
    that raised has no line for its last read. *)
Lemma read_loop_counts (fuel : nat) (s : read_state sample hat) :
  match read_loop samples_per_channel num_channels fuel s with
  | OutOfFuel s' =>
      count is_read (r_out s') = (count is_read (r_out s) + fuel)%nat /\
      count is_display_line (r_out s') =
      (count is_display_line (r_out s) + fuel)%nat
  | Done s' =>
      exists k, (k <= fuel)%nat /\
        count is_read (r_out s') = (count is_read (r_out s) + k)%nat /\
        (count is_display_line (r_out s') =
         (count is_display_line (r_out s) + k)%nat \/
         S (count is_display_line (r_out s')) =
         (count is_display_line (r_out s) + k)%nat)
  | Raised _ s' =>
      exists k, (k <= fuel)%nat /\
        count is_read (r_out s') = (count is_read (r_out s) + k)%nat /\
        S (count is_display_line (r_out s')) =
        (count is_display_line (r_out s) + k)%nat
  end.
Proof.
  unfold read_loop. revert s. induction fuel as [|fuel IH]; intros s; simpl.
  - destruct (read_cond samples_per_channel s).
    + split; lia.
    + exists 0%nat. repeat split; [lia | lia | left; lia].
  - destruct (read_cond samples_per_channel s).
    + pose proof (read_body_counts num_channels s) as [Hr Hl].
      destruct (read_body num_channels s) as [s1 | s1 | e s1]; simpl in Hr.
      * specialize (IH s1).
        destruct (py_while _ _ fuel s1) as [s' | e s' | s'].
        -- destruct IH as (k & Hk & Hr' & Hl'). exists (S k).
           repeat split; [lia | lia | lia].
        -- destruct IH as (k & Hk & Hr' & Hl'). exists (S k).
           repeat split; lia.
        -- destruct IH as (Hr' & Hl'). split; lia.
      * exists 1%nat. repeat split; [lia | lia | right; lia].
      * exists 1%nat. repeat split; lia.
    + exists 0%nat. repeat split; [lia | lia | left; lia].
Qed.

End LoopAny.

(** X2. With no channels at all and a target above zero, the first read
    without an overrun makes the function raise [ZeroDivisionError]: the
    device has been read once, and nothing has been printed or counted. *)
Theorem no_channels_raise_at_first_read {sample hat : Type}
    {HAT : mcc118 sample hat} (fuel : nat) (h h' : hat)
    (samples_per_channel : Z) (r : ReadResult sample) :
  0 < samples_per_channel ->
  a_in_scan_read read_request_size timeout h = (r, h') ->
  no_overrun r ->
  read_and_display_data (S fuel) h samples_per_channel 0 =
  Raised ZeroDivisionError
    (mkRead h' 0 [ScanReadCall read_request_size timeout]).
Proof.
  intros Hspc Hread [Hh Hb].
  unfold read_and_display_data, read_loop.
  rewrite (py_while_throw _ _ fuel ZeroDivisionError
             (mkRead h 0 [])
             (mkRead h' 0 [ScanReadCall read_request_size timeout]));
    [reflexivity | now apply Z.ltb_lt |].
  unfold read_body, scan_read. simpl. now rewrite Hread, Hh, Hb.
Qed.

(** X3. On any device and for any arguments, the only exception that
    [read_and_display_data] raises by itself is the [ZeroDivisionError] of
    a call with no channels: never an [IndexError], whatever the lengths
    of the data that the device returns. *)
Theorem read_and_display_data_never_index_error {sample hat : Type}
    {HAT : mcc118 sample hat} (fuel : nat) (h : hat)
    (samples_per_channel num_channels : Z) :
  match read_and_display_data fuel h samples_per_channel num_channels with
  | Raised e _ => e = ZeroDivisionError /\ num_channels = 0
  | _ => True
  end.
Proof.
  unfold read_and_display_data, read_loop.
  destruct (py_while (read_cond samples_per_channel) (read_body num_channels)
              fuel (mkRead h 0 [])) as [s | e s | s] eqn:Hrun; auto.
  apply (py_while_raised (read_cond samples_per_channel)
           (read_body num_channels)
           (fun e => e = ZeroDivisionError /\ num_channels = 0)
           (fun s0 e0 s1 => read_body_throw num_channels s0 s1 e0)
           fuel _ e s Hrun).
Qed.

(** X4. On any device, each pass of the read loop makes one read, and
    each read is followed by one display line unless it ends the run: at
    any point the display lines are as many as the reads or one fewer, a
    run that is still going has as many of both as it made passes, and a
    run that raised has no line for its last read. *)
Theorem one_display_line_per_read {sample hat : Type}
    {HAT : mcc118 sample hat} (fuel : nat) (h : hat)
    (samples_per_channel num_channels : Z) :
  match read_and_display_data fuel h samples_per_channel num_channels with
  | OutOfFuel s =>
      count is_read (r_out s) = fuel /\
      count is_display_line (r_out s) = fuel
  | Done s =>
      (count is_read (r_out s) <= fuel)%nat /\
      (count is_display_line (r_out s) = count is_read (r_out s) \/
       S (count is_display_line (r_out s)) = count is_read (r_out s))
  | Raised _ s =>
      (count is_read (r_out s) <= fuel)%nat /\
      S (count is_display_line (r_out s)) = count is_read (r_out s)
  end.
Proof.
  unfold read_and_display_data.
  pose proof (read_loop_counts samples_per_channel num_channels fuel
                (mkRead h 0 [])) as H.
  destruct (read_loop samples_per_channel num_channels fuel (mkRead h 0 []))
    as [s | e s | s]; simpl in H.
  - destruct H as (k & Hk & Hr & Hl).
    cbn [emit r_out]. rewrite !count_app. unfold count at 2 4 6 8. simpl.
    unfold count in *. simpl in *. lia.
  - destruct H as (k & Hk & Hr & Hl). unfold count in *. simpl in *. lia.
  - unfold count in *. simpl in *. lia.
Qed.

Lemma getitem_from {A : Type} (l : list A) (index : Z) (a n : nat) :
  0 <= index ->
  map (nth_error l) (seq (Z.to_nat index + a) n) =
  map (fun i => py_getitem l (index + Z.of_nat i)) (seq a n).
Proof.
  intros Hi. revert a. induction n as [|n IH]; intros a; [reflexivity|].
  cbn [seq map]. rewrite py_getitem_nat by lia. f_equal.
  - f_equal. lia.
  - replace (S (Z.to_nat index + a)) with (Z.to_nat index + S a)%nat by lia.
    apply IH.
Qed.

(** X5. In a pass whose read has no overrun and brings at least one
    sample per channel, for a positive number of channels, what is
    displayed is the last whole group of [data]: one value per channel, the
    [i]-th being [data[index + i]] with
    [index = samples_read_per_channel * num_channels - num_channels]; the
    samples of an incomplete group after it are not displayed. *)
Theorem last_whole_group_is_displayed {sample hat : Type}
    {HAT : mcc118 sample hat} (num_channels : Z)
    (s : read_state sample hat) (r : ReadResult sample) (h : hat) :
  a_in_scan_read read_request_size timeout (r_hat s) = (r, h) ->
  no_overrun r ->
  0 < num_channels ->
  0 < block num_channels r ->
  exists new,
    read_body num_channels s =
    Continue (mkRead h (total_samples_read s + block num_channels r)
                (r_out s ++ new)) /\
    printed new =
    py_slice (data r)
      (Z.to_nat (block num_channels r * num_channels - num_channels))
      (Z.to_nat (block num_channels r * num_channels)) /\
    List.length (printed new) = Z.to_nat num_channels /\
    map Some (printed new) =
    map (fun i => py_getitem (data r)
                    (block num_channels r * num_channels - num_channels + i))
      (range num_channels).
Proof.
  intros Hread Hr Hnc Hpos.
  set (b := block num_channels r) in *.
  assert (Hle : b * num_channels <= Z.of_nat (List.length (data r))).
  { unfold b, block. rewrite Z.mul_comm. apply Z.mul_div_le. lia. }
  exists (pass_log num_channels (total_samples_read s) r).
  split; [exact (read_body_no_overrun num_channels s r h Hread Hr Hnc)|].
  assert (Hprinted :
            printed (pass_log num_channels (total_samples_read s) r) =
            py_slice (data r) (Z.to_nat (b * num_channels - num_channels))
              (Z.to_nat (b * num_channels))).
  { unfold pass_log. fold b.
    destruct (Z.ltb_spec 0 b) as [_ | Hno]; [|lia].
    cbn [printed]. rewrite printed_app, printed_group_log.
    cbn [printed]. apply app_nil_r. }
  rewrite Hprinted. split; [reflexivity|]. split.
  - rewrite py_slice_length by nia. nia.
  - unfold py_slice.
    replace (Z.to_nat (b * num_channels) -
             Z.to_nat (b * num_channels - num_channels))%nat
      with (Z.to_nat num_channels) by nia.
    rewrite slice_elements by nia.
    unfold range. rewrite map_map.
    rewrite <- (Nat.add_0_r (Z.to_nat (b * num_channels - num_channels))).
    apply getitem_from. nia.
Qed.

(** ** More on the read loop on a replayed device *)

Section ReplayMore.

Context {sample : Type}.
Variables (ss : nat -> ScanStatus) (rs : nat -> ReadResult sample) (p : nat).
Variables (samples_per_channel num_channels : Z).
Hypothesis positive_channels : 0 < num_channels.


(** The totals under reads of at most [bound] samples per channel. *)
Lemma totals_bound (bound : Z) (k : nat) :
  (forall j, block num_channels (rs j) <= bound) ->
  totals rs num_channels k <= bound * Z.of_nat k.
Proof.
  intros Hb. induction k as [|k IH]; [simpl; lia|].
  cbn [totals]. specialize (Hb k). lia.
Qed.

(** Where a run without overrun returns. *)
Lemma read_and_display_data_done (fuel : nat)
    (s : read_state sample (tape sample)) :
  (forall k, no_overrun (rs k)) ->
  read_and_display_data fuel (mkTape ss rs p 0) samples_per_channel
    num_channels = Done s ->
  exists n,
    first_crossing rs samples_per_channel num_channels n /\
    s = mkRead (mkTape ss rs p n) (totals rs num_channels n)
          (log rs num_channels n ++ [Print nl]).
Proof.
  intros Hrs. unfold read_and_display_data.
  change (mkRead (mkTape ss rs p 0) 0 []) with (after ss rs p num_channels 0).
  destruct (crossing_within rs samples_per_channel num_channels fuel)
    as [Hlt | (n & Hn & Hfirst)].
  - rewrite (read_loop_out_of_fuel ss rs p _ _ positive_channels Hrs fuel Hlt).
    discriminate.
  - rewrite (read_loop_done ss rs p _ _ positive_channels Hrs n fuel Hfirst Hn).
    intros H. inversion H. exists n. split; [exact Hfirst | reflexivity].
Qed.

End ReplayMore.

(** X6. If no read has an overrun and every read brings at most the 500
    samples per channel that the loop asks for, then, for a positive number
    of channels and a target above zero, the function returns with a total
    that is at least the target and less than 500 above it, and it has made
    at least [samples_per_channel / 500] reads. *)
Theorem total_overshoots_by_less_than_a_request {sample : Type}
    (ss : nat -> ScanStatus) (rs : nat -> ReadResult sample) (p fuel : nat)
    (samples_per_channel num_channels : Z)
    (s : read_state sample (tape sample)) :
  0 < num_channels ->
  0 < samples_per_channel ->
  (forall k, no_overrun (rs k) /\
             Z.of_nat (List.length (data (rs k))) <=
             read_request_size * num_channels) ->
  read_and_display_data fuel (mkTape ss rs p 0) samples_per_channel
    num_channels = Done s ->
  samples_per_channel <= total_samples_read s
    < samples_per_channel + read_request_size /\
  samples_per_channel <= read_request_size * Z.of_nat (read_calls (r_hat s)).
Proof.
  intros Hnc Hspc Hrs Hdone.
  assert (Hblock : forall j, block num_channels (rs j) <= read_request_size).
  { intros j. unfold block. apply Z.div_le_upper_bound; [exact Hnc|].
    destruct (Hrs j) as [_ Hlen]. lia. }
  destruct (read_and_display_data_done ss rs p samples_per_channel
              num_channels Hnc fuel s (fun k => proj1 (Hrs k)) Hdone)
    as (n & [Hge Hlt] & ->).
  cbn [total_samples_read r_hat read_calls].
  pose proof (totals_bound rs num_channels read_request_size n Hblock) as Hbound.
  split; [|lia]. split; [exact Hge|].
  destruct n as [|n]; [simpl in Hge; lia|].
  specialize (Hlt n ltac:(lia)). specialize (Hblock n).
  cbn [totals]. lia.
Qed.


(** ** [main]: the two loops one after the other *)

Section WaitReplay.

Context {sample : Type}.
Variables (ss : nat -> ScanStatus) (rs : nat -> ReadResult sample) (q : nat).

(** The wait on a replayed device ends with the first status that is not
    waiting. *)
Lemma wait_for_trigger_replay_done (n fuel : nat) :
  (forall k, (k < n)%nat -> waiting (ss k)) ->
  triggered (ss n) = true \/ running (ss n) = false ->
  (n < fuel)%nat ->
  wait_for_trigger fuel (mkTape ss rs 0 q) = Done (polled ss rs q (S n)).
Proof.
  intros Hw Hn Hf.
  assert (Hseen : forall k, (k <= n)%nat -> waiting (seen ss k)).
  { intros [|k] Hk; [now split | apply Hw; lia]. }
  change (wait_for_trigger fuel (mkTape ss rs 0 q))
    with (py_while trigger_cond trigger_body fuel (polled ss rs q 0)).
  replace fuel with (n + S (fuel - S n))%nat by lia.
  rewrite trigger_polls by (intros k Hk; apply Hseen; lia).
  simpl (0 + n)%nat.
  rewrite (py_while_continue trigger_cond trigger_body _ _ _
             (waiting_cond ss rs q n (Hseen n (Nat.le_refl n)))
             (trigger_body_polled ss rs q n)).
  apply py_while_exit. unfold trigger_cond, polled. simpl.
  destruct Hn as [Ht | Hr]; [rewrite Ht; apply andb_false_r | now rewrite Hr].
Qed.

(** The wait on a replayed device that is always waiting goes on. *)
Lemma wait_for_trigger_replay_waiting (fuel : nat) :
  (forall k, waiting (ss k)) ->
  wait_for_trigger fuel (mkTape ss rs 0 q) =
  OutOfFuel (polled ss rs q fuel).
Proof.
  intros Hw.
  assert (Hseen : forall k, waiting (seen ss k)).
  { intros [|k]; [now split | apply Hw]. }
  change (wait_for_trigger fuel (mkTape ss rs 0 q))
    with (py_while trigger_cond trigger_body fuel (polled ss rs q 0)).
  replace fuel with (fuel + 0)%nat at 1 by lia.
  rewrite trigger_polls by (intros k _; apply Hseen).
  apply py_while_stuck, waiting_cond, Hseen.
Qed.

End WaitReplay.

Section FirstRead.

Context {sample hat : Type} {HAT : mcc118 sample hat}.
Variables (samples_per_channel num_channels : Z).

(** A pass begins with its read, and only adds to the log. *)
Lemma read_body_extends (s : read_state sample hat) :
  exists new,
    r_out (left_by (read_body num_channels s)) =
    r_out s ++ ScanReadCall read_request_size timeout :: new.
Proof.
  unfold read_body, scan_read.
  destruct (a_in_scan_read read_request_size timeout (r_hat s)) as [r h].
  destruct (hardware_overrun r); [|destruct (buffer_overrun r)];
    try (eexists; simpl; rewrite <- app_assoc; reflexivity).
  destruct (py_div _ num_channels) as [b|];
    [|exists []; reflexivity].
  cbv zeta.
  match goal with
  | |- context [emit (PrintCounts ?x ?t) ?st] =>
      assert (H3 : r_out (emit (PrintCounts x t) st) =
                   r_out s ++ [ScanReadCall read_request_size timeout;
                               PrintCounts x t])
        by (simpl; rewrite <- app_assoc; reflexivity);
      set (s3 := emit (PrintCounts x t) st) in *
  end.
  clearbody s3.
  destruct (0 <? b); [|eexists; simpl; rewrite H3; reflexivity].
  destruct (display_group_quiet (data r) (b * num_channels - num_channels)
              (range num_channels) s3) as (new & Hout & _).
  destruct (display_group (data r) (b * num_channels - num_channels)
              (range num_channels) s3) as [s4 | s4 | e s4];
    simpl in Hout |- *; rewrite Hout, H3; eexists;
    rewrite <- ?app_assoc; simpl; reflexivity.
Qed.

(** The loop only adds to the log. *)
Lemma read_loop_extends (fuel : nat) (s : read_state sample hat) :
  exists more,
    r_out (final (read_loop samples_per_channel num_channels fuel s)) =
    r_out s ++ more.
Proof.
  apply (py_while_invariant (read_cond samples_per_channel)
           (read_body num_channels)
           (fun s' => exists more, r_out s' = r_out s ++ more)).
  - intros s1 (more & Hmore).
    destruct (read_body_extends s1) as (new & Hnew).
    destruct (read_body num_channels s1); simpl in Hnew;
      rewrite Hnew, Hmore, <- app_assoc; eexists; reflexivity.
  - exists []. now rewrite app_nil_r.
Qed.

(** With a target above zero the first thing the function does is a
    read. *)
Lemma read_and_display_data_reads_first (fuel : nat) (h : hat) :
  0 < samples_per_channel ->
  exists rest,
    r_out (final (read_and_display_data (S fuel) h samples_per_channel
                    num_channels)) =
    ScanReadCall read_request_size timeout :: rest.
Proof.
  intros Hspc.
  assert (Hloop : exists rest,
            r_out (final (read_loop samples_per_channel num_channels (S fuel)
                            (mkRead h 0 []))) =
            ScanReadCall read_request_size timeout :: rest).
  { unfold read_loop. simpl py_while.
    replace (read_cond samples_per_channel (mkRead h 0 [])) with true
      by (symmetry; now apply Z.ltb_lt).
    destruct (read_body_extends (mkRead h 0 [])) as (new & Hnew).
    simpl in Hnew.
    destruct (read_body num_channels (mkRead h 0 []))
      as [s1 | s1 | e s1]; simpl in Hnew; try (now exists new).
    destruct (read_loop_extends fuel s1) as (more & Hmore).
    unfold read_loop in Hmore. rewrite Hmore, Hnew.
    eexists. reflexivity. }
  destruct Hloop as (rest & Hrest). unfold read_and_display_data.
  destruct (read_loop samples_per_channel num_channels (S fuel) (mkRead h 0 []));
    simpl in *; rewrite Hrest; eexists; reflexivity.
Qed.

End FirstRead.

Lemma totals_constant {sample : Type} (rs : nat -> ReadResult sample)
    (num_channels b : Z) (k : nat) :
  (forall j, block num_channels (rs j) = b) ->
  totals rs num_channels k = b * Z.of_nat k.
Proof.
  intros Hb. induction k as [|k IH]; [simpl; lia|].
  cbn [totals]. rewrite IH, Hb. lia.
Qed.

(** X8. [main] does not ask why the wait for the trigger ended: whenever
    [wait_for_trigger] returns, with a trigger or with a scan that is no
    longer running, the table header is printed and the first thing after
    it is a read of the device. *)
Theorem main_reads_whatever_ended_the_wait {sample hat : Type}
    {HAT : mcc118 sample hat} (fuel : nat) (h : hat)
    (t : trigger_state sample hat) :
  wait_for_trigger (S fuel) h = Done t ->
  exists rest,
    Main.m_out (final (Main.acquisition (S fuel) h)) =
    Main.waiting_message :: map Main.Effect (t_out t) ++ Main.header ++
    Main.Effect (ScanReadCall read_request_size timeout) :: rest.
Proof.
  intros Hwait. unfold Main.acquisition. rewrite Hwait.
  destruct (read_and_display_data_reads_first Main.samples_per_channel
              Main.num_channels fuel (t_hat t) ltac:(reflexivity))
    as (rest & Hrest).
  exists (map Main.Effect rest).
  destruct (read_and_display_data (S fuel) (t_hat t) Main.samples_per_channel
              Main.num_channels) as [r | e r | r];
    simpl in Hrest |- *; rewrite Hrest, <- app_assoc; reflexivity.
Qed.

(** X9. With the target and the channels of [main], on a device whose
    status ends the wait at the poll after [n] waiting ones and whose every
    read has no overrun and 2000 samples, [main] polls the status [n + 1]
    times, prints the header and then makes exactly twenty reads, which
    bring the 10000 samples per channel. *)
Theorem main_reads_twenty_full_blocks {sample : Type}
    (ss : nat -> ScanStatus) (rs : nat -> ReadResult sample) (n fuel : nat) :
  (forall k, (k < n)%nat -> waiting (ss k)) ->
  triggered (ss n) = true \/ running (ss n) = false ->
  (forall k, no_overrun (rs k) /\ List.length (data (rs k)) = 2000%nat) ->
  (n < fuel)%nat ->
  (20 <= fuel)%nat ->
  Main.acquisition fuel (mkTape ss rs 0 0) =
  Done (Main.mkState (mkTape ss rs (S n) 20)
          (Main.waiting_message ::
           map Main.Effect (repeat ScanStatusCall (S n)) ++ Main.header ++
           map Main.Effect (log rs Main.num_channels 20 ++ [Print nl]))) /\
  totals rs Main.num_channels 20 = Main.samples_per_channel.
Proof.
  intros Hw Hn Hrs Hfuel H20.
  assert (Hb : forall k, block 4 (rs k) = 500).
  { intros k. unfold block. destruct (Hrs k) as [_ Hlen].
    rewrite Hlen. reflexivity. }
  assert (Htotals : forall k, totals rs 4 k = 500 * Z.of_nat k)
    by (intros k; now apply totals_constant).
  assert (Hfirst : first_crossing rs 10000 4 20).
  { split.
    - rewrite Htotals. lia.
    - intros m Hm. rewrite Htotals. lia. }
  change Main.num_channels with 4. change Main.samples_per_channel with 10000.
  split; [|rewrite Htotals; reflexivity].
  unfold Main.acquisition.
  rewrite (wait_for_trigger_replay_done ss rs 0 n fuel Hw Hn Hfuel).
  change Main.num_channels with 4. change Main.samples_per_channel with 10000.
  unfold read_and_display_data, polled. cbn [t_hat t_out].
  change (mkRead (mkTape ss rs (S n) 0) 0 []) with (after ss rs (S n) 4 0).
  rewrite (read_loop_done ss rs (S n) 10000 4 ltac:(lia)
             (fun k => proj1 (Hrs k)) 20 fuel Hfirst H20).
  unfold after, emit. cbn [r_hat r_out].
  rewrite <- app_comm_cons, <- app_assoc. reflexivity.
Qed.

(** X10. While every status says that the scan is running and not
    triggered, [main] stays in the wait: after any number of polls it has
    printed only the waiting message, not the header, and has read nothing
    from the device. *)
Theorem main_reads_nothing_while_waiting {sample : Type}
    (ss : nat -> ScanStatus) (rs : nat -> ReadResult sample) (fuel : nat) :
  (forall k, waiting (ss k)) ->
  Main.acquisition fuel (mkTape ss rs 0 0) =
  OutOfFuel (Main.mkState (mkTape ss rs fuel 0)
               (Main.waiting_message ::
                map Main.Effect (repeat ScanStatusCall fuel))).
Proof.
  intros Hw. unfold Main.acquisition.
  now rewrite (wait_for_trigger_replay_waiting ss rs 0 fuel Hw).
Qed.

(** ** The further properties on the example devices *)

Lemma no_channels_raise_at_first_read_example :
  read_and_display_data 1 (mkTape never_triggered nine_samples 0 0) 10 0 =
  Raised ZeroDivisionError
    (mkRead (mkTape never_triggered nine_samples 0 1) 0
       [ScanReadCall 500 (5 # 1)]).
Proof.
  apply (no_channels_raise_at_first_read 0
           (mkTape never_triggered nine_samples 0 0)
           (mkTape never_triggered nine_samples 0 1) 10 (nine_samples 0)).
  - lia.
  - reflexivity.
  - split; reflexivity.
Defined.

Lemma last_whole_group_is_displayed_example :
  exists new,
    read_body 4 (fresh nine_samples) =
    Continue (mkRead (mkTape never_triggered nine_samples 0 1) 2 new) /\
    printed new = [9 # 2; 11 # 2; 13 # 2; 15 # 2]%Q /\
    List.length (printed new) = 4%nat /\
    map Some (printed new) =
    map (fun i => py_getitem volts (4 + i)) [0; 1; 2; 3].
Proof.
  apply (last_whole_group_is_displayed 4 (fresh nine_samples)
           (nine_samples 0) (mkTape never_triggered nine_samples 0 1)).
  - reflexivity.
  - split; reflexivity.
  - lia.
  - reflexivity.
Defined.

Lemma total_overshoots_by_less_than_a_request_example :
  4 <= total_samples_read
         (final (read_and_display_data 5
                   (mkTape never_triggered nine_samples 0 0) 4 4))
    < 4 + read_request_size /\
  4 <= read_request_size *
       Z.of_nat (read_calls
                   (r_hat (final (read_and_display_data 5
                                    (mkTape never_triggered nine_samples 0 0)
                                    4 4)))).
Proof.
  apply (total_overshoots_by_less_than_a_request never_triggered nine_samples
           0 5 4 4).
  - lia.
  - lia.
  - intros k. split; [split; reflexivity | simpl; lia].
  - reflexivity.
Defined.


Lemma main_reads_whatever_ended_the_wait_example :
  exists rest,
    Main.m_out (final (Main.acquisition 1
                         (mkTape stopped_untriggered nine_samples 0 0))) =
    Main.waiting_message :: Main.Effect ScanStatusCall :: Main.header ++
    Main.Effect (ScanReadCall 500 (5 # 1)) :: rest.
Proof.
  apply (main_reads_whatever_ended_the_wait 0
           (mkTape stopped_untriggered nine_samples 0 0)
           (mkTrigger (mkTape stopped_untriggered nine_samples 1 0)
              false false [ScanStatusCall])).
  reflexivity.
Defined.

Lemma main_reads_twenty_full_blocks_example :
  Main.acquisition 20 (mkTape trigger_at_third full_blocks 0 0) =
  Done (Main.mkState (mkTape trigger_at_third full_blocks 3 20)
          (Main.waiting_message ::
           map Main.Effect (repeat ScanStatusCall 3) ++ Main.header ++
           map Main.Effect (log full_blocks Main.num_channels 20 ++ [Print nl]))) /\
  totals full_blocks Main.num_channels 20 = Main.samples_per_channel.
Proof.
  apply (main_reads_twenty_full_blocks trigger_at_third full_blocks 2 20).
  - intros [|[|k]] Hk; [split; reflexivity | split; reflexivity | lia].
  - left. reflexivity.
  - intros k. split; [split; reflexivity | reflexivity].
  - lia.
  - lia.
Defined.

Lemma main_reads_nothing_while_waiting_example :
  Main.acquisition 6 (mkTape never_triggered nine_samples 0 0) =
  OutOfFuel (Main.mkState (mkTape never_triggered nine_samples 6 0)
               (Main.waiting_message ::
                map Main.Effect (repeat ScanStatusCall 6))).
Proof.
  apply (main_reads_nothing_while_waiting never_triggered nine_samples 6).
  intros k. split; reflexivity.
Defined.
